(** * Desktop clock: a shallow embedding of [desktop_clock.py]

    The program is a Tk widget showing [HH:MM:SS.mmm], refreshed by a
    self-rescheduling timer aligned on multiples of 16 ms, draggable with
    the primary mouse button and dismissed with the secondary one.

    Integers are Python's unbounded [int], hence [Z].  The toolkit, the
    clocks and the platform are the environment: their answers are inputs
    of the model ([Host], [Event]) and the widget they act on is the
    record [World]. *)

From Stdlib Require Import ZArith List String Ascii Bool Lia DecimalString.
Import ListNotations.

Local Open Scope Z_scope.

(** ** Tick arithmetic ([_schedule_next_tick], lines 103-108) *)

Module Tick.

(** [UPDATE_INTERVAL_MS = 16] *)
Definition UPDATE_INTERVAL_MS : Z := 16.

(** [interval_ns = int(UPDATE_INTERVAL_MS * 1_000_000)]; the product of two
    ints is an int and [int] leaves it unchanged. *)
Definition interval_ns : Z := UPDATE_INTERVAL_MS * 1000000.

(** [next_tick_ns = ((now_ns // interval_ns) + 1) * interval_ns].
    Python's [//] on ints is floor division, which is [Z.div]. *)
Definition next_tick_ns (now_ns : Z) : Z :=
  ((now_ns / interval_ns) + 1) * interval_ns.

(** [int(a / b)] for ints [a], [b]: true division followed by truncation
    toward zero.  The quotient is needed here only for [0 <= a < 2^53] and
    [b] one of 1000 and 1_000_000, where the correctly rounded double
    cannot cross an integer (a quotient that is not an integer is at least
    [1/b] away from the next one), so the truncated double is the truncated
    exact quotient, [Z.quot]. *)
Definition int_truediv (a b : Z) : Z := Z.quot a b.

(** [delay_ms = max(1, int((next_tick_ns - now_ns) / 1_000_000))] *)
Definition delay_ms (now_ns : Z) : Z :=
  Z.max 1 (int_truediv (next_tick_ns now_ns - now_ns) 1000000).

(** The formula of the design text, [ceil(now / interval) * interval],
    written from its words to be compared with [next_tick_ns]. *)
Definition ceil_div (a b : Z) : Z := - ((- a) / b).

Definition spec_next_tick (now interval : Z) : Z :=
  ceil_div now interval * interval.

(** The delay of the design text: [max(1, next_tick - now)] in nanoseconds,
    then converted to whole milliseconds. *)
Definition spec_delay_ms (now interval : Z) : Z :=
  int_truediv (Z.max 1 (spec_next_tick now interval - now)) 1000000.

End Tick.

(** ** Text formatting ([_update_time], lines 98-100) *)

Module Format.

(** [str(n)] for an int [n >= 0]: its decimal digits, ["0"] for zero. *)
Definition str_nonneg (n : Z) : string :=
  NilZero.string_of_uint (N.to_uint (Z.to_N n)).

Fixpoint zeros (k : nat) : string :=
  match k with
  | O => EmptyString
  | S k' => String "0" (zeros k')
  end.

(** [format(n, "0<width>d")]: the sign first, then zeros, then the digits,
    at least [width] characters in all; longer values are not cut. *)
Definition format_0d (width : nat) (n : Z) : string :=
  let digits := str_nonneg (Z.abs n) in
  if n <? 0
  then String "-" (zeros (width - 1 - String.length digits) ++ digits)
  else (zeros (width - String.length digits) ++ digits)%string.

(** The fields of [datetime.now()] the program reads. *)
Record DateTime := {
  hour : Z;
  minute : Z;
  second : Z;
  microsecond : Z
}.

(** [now.strftime("%H:%M:%S")] *)
Definition strftime_HMS (now : DateTime) : string :=
  (format_0d 2 (hour now) ++ ":" ++ format_0d 2 (minute now) ++ ":"
   ++ format_0d 2 (second now))%string.

(** [f"{int(now.microsecond/1000):03d}"] *)
Definition format_mmm (now : DateTime) : string :=
  format_0d 3 (Tick.int_truediv (microsecond now) 1000).

(** The decimal digit [d] as a character, for [0 <= d <= 9]. *)
Definition digit_char (d : Z) : ascii :=
  ascii_of_N (48 + Z.to_N d).

(** A value below 1000 written with exactly three digits. *)
Definition three_digits (q : Z) : string :=
  String (digit_char (q / 100))
    (String (digit_char ((q / 10) mod 10))
       (String (digit_char (q mod 10)) EmptyString)).

(** A value below 100 written with exactly two digits. *)
Definition two_digits (v : Z) : string :=
  String (digit_char (v / 10)) (String (digit_char (v mod 10)) EmptyString).

End Format.

(** ** The widget and its environment *)

Module Clock.

Import Format.

(** The four widgets that receive bindings: [self.root] and the three
    labels [self.hhmmss], [self.dot], [self.mmm]. *)
Inductive Widget := Root | Hhmmss | Dot | Mmm.

(** The event sequences the program binds: ["<ButtonPress-1>"],
    ["<B1-Motion>"], ["<Button-3>"]. *)
Inductive Sequence := ButtonPress_1 | B1_Motion | Button_3.

(** The three callbacks given to [bind]: [self._on_start_move],
    [self._on_move] and [lambda e: self.root.destroy()]. *)
Inductive Callback := cb_on_start_move | cb_on_move | cb_destroy.

Inductive FontFamily := JetBrainsMono | Courier.

Record Font := {
  family : FontFamily;
  size : Z;
  bold : bool
}.

(** Python exceptions the model distinguishes.  [KeyboardInterrupt] and
    [SystemExit] derive from [BaseException] only, so [except Exception]
    lets them through. *)
Inductive exn := TclError | ImportError | KeyboardInterrupt | SystemExit.

Definition is_Exception (e : exn) : bool :=
  match e with
  | TclError | ImportError => true
  | KeyboardInterrupt | SystemExit => false
  end.

Definition is_KeyboardInterrupt (e : exn) : bool :=
  match e with
  | KeyboardInterrupt => true
  | _ => false
  end.

(** [str(e)] as printed by the diagnostic. *)
Definition str_exn (e : exn) : string :=
  match e with
  | TclError => "TclError"
  | ImportError => "No module named Cocoa"
  | KeyboardInterrupt => "KeyboardInterrupt"
  | SystemExit => "SystemExit"
  end.

(** The calls whose outcome depends on the platform, as they are issued. *)
Inductive Call :=
| call_topmost
| call_overrideredirect
| call_Font (f : FontFamily)
| call_setLevel.

(** What the host answers.  A [false] flag makes the matching call raise. *)
Record Host := {
  topmost_ok : bool;          (* [attributes("-topmost", True)] accepted *)
  overrideredirect_ok : bool; (* [overrideredirect(True)] accepted *)
  font_ok : FontFamily -> bool; (* [tkfont.Font(family=...)] succeeds *)
  darwin : bool;              (* [sys.platform == "darwin"] *)
  cocoa_ok : bool;            (* the Cocoa import and [setLevel_] succeed *)
  reqwidth : Widget -> Z;     (* [winfo_reqwidth()] once laid out *)
  reqheight : Widget -> Z;    (* [winfo_reqheight()] once laid out *)
  screenwidth : Z;            (* [winfo_screenwidth()] *)
  start_ns : Z                (* [perf_counter_ns()] read by [__init__] *)
}.

(** [self._drag_data = {"x": ..., "y": ...}]: a dict with two fixed keys. *)
Record DragData := {
  drag_x : Z;
  drag_y : Z
}.

(** The window as [geometry] sets it: size and top-left corner. *)
Record Geometry := {
  width : Z;
  height : Z;
  pos_x : Z;
  pos_y : Z
}.

(** The [text] option of the three labels. *)
Record Labels := {
  hhmmss : string;
  dot : string;
  mmm : string
}.

Record World := {
  alive : bool;               (* the root window exists *)
  topmost : bool;
  undecorated : bool;
  time_font : option Font;
  ms_font : option Font;
  labels : Labels;
  bindings : list (Widget * Sequence * Callback);
  _drag_data : DragData;
  geom : Geometry;
  floating : bool;
  after_queue : list Z;       (* delays of pending [after(_, _update_time)] *)
  stdout : list string;
  calls : list Call
}.

(** [tk.Tk()]: a fresh root, nothing configured yet. *)
Definition tk_Tk : World := {|
  alive := true;
  topmost := false;
  undecorated := false;
  time_font := None;
  ms_font := None;
  labels := {| hhmmss := ""; dot := ""; mmm := "" |};
  bindings := [];
  _drag_data := {| drag_x := 0; drag_y := 0 |};
  geom := {| width := 1; height := 1; pos_x := 0; pos_y := 0 |};
  floating := false;
  after_queue := [];
  stdout := [];
  calls := []
|}.

(** Field updates. *)
Definition set_alive (v : bool) (s : World) : World :=
  {| alive := v; topmost := topmost s; undecorated := undecorated s;
     time_font := time_font s; ms_font := ms_font s; labels := labels s;
     bindings := bindings s; _drag_data := _drag_data s; geom := geom s;
     floating := floating s; after_queue := after_queue s;
     stdout := stdout s; calls := calls s |}.

Definition set_topmost (v : bool) (s : World) : World :=
  {| alive := alive s; topmost := v; undecorated := undecorated s;
     time_font := time_font s; ms_font := ms_font s; labels := labels s;
     bindings := bindings s; _drag_data := _drag_data s; geom := geom s;
     floating := floating s; after_queue := after_queue s;
     stdout := stdout s; calls := calls s |}.

Definition set_undecorated (v : bool) (s : World) : World :=
  {| alive := alive s; topmost := topmost s; undecorated := v;
     time_font := time_font s; ms_font := ms_font s; labels := labels s;
     bindings := bindings s; _drag_data := _drag_data s; geom := geom s;
     floating := floating s; after_queue := after_queue s;
     stdout := stdout s; calls := calls s |}.

Definition set_fonts (tf mf : option Font) (s : World) : World :=
  {| alive := alive s; topmost := topmost s; undecorated := undecorated s;
     time_font := tf; ms_font := mf; labels := labels s;
     bindings := bindings s; _drag_data := _drag_data s; geom := geom s;
     floating := floating s; after_queue := after_queue s;
     stdout := stdout s; calls := calls s |}.

Definition set_labels (v : Labels) (s : World) : World :=
  {| alive := alive s; topmost := topmost s; undecorated := undecorated s;
     time_font := time_font s; ms_font := ms_font s; labels := v;
     bindings := bindings s; _drag_data := _drag_data s; geom := geom s;
     floating := floating s; after_queue := after_queue s;
     stdout := stdout s; calls := calls s |}.

Definition set_bindings (v : list (Widget * Sequence * Callback)) (s : World)
  : World :=
  {| alive := alive s; topmost := topmost s; undecorated := undecorated s;
     time_font := time_font s; ms_font := ms_font s; labels := labels s;
     bindings := v; _drag_data := _drag_data s; geom := geom s;
     floating := floating s; after_queue := after_queue s;
     stdout := stdout s; calls := calls s |}.

Definition set_drag_data (v : DragData) (s : World) : World :=
  {| alive := alive s; topmost := topmost s; undecorated := undecorated s;
     time_font := time_font s; ms_font := ms_font s; labels := labels s;
     bindings := bindings s; _drag_data := v; geom := geom s;
     floating := floating s; after_queue := after_queue s;
     stdout := stdout s; calls := calls s |}.

Definition set_geom (v : Geometry) (s : World) : World :=
  {| alive := alive s; topmost := topmost s; undecorated := undecorated s;
     time_font := time_font s; ms_font := ms_font s; labels := labels s;
     bindings := bindings s; _drag_data := _drag_data s; geom := v;
     floating := floating s; after_queue := after_queue s;
     stdout := stdout s; calls := calls s |}.

Definition set_floating (v : bool) (s : World) : World :=
  {| alive := alive s; topmost := topmost s; undecorated := undecorated s;
     time_font := time_font s; ms_font := ms_font s; labels := labels s;
     bindings := bindings s; _drag_data := _drag_data s; geom := geom s;
     floating := v; after_queue := after_queue s;
     stdout := stdout s; calls := calls s |}.

Definition set_after_queue (v : list Z) (s : World) : World :=
  {| alive := alive s; topmost := topmost s; undecorated := undecorated s;
     time_font := time_font s; ms_font := ms_font s; labels := labels s;
     bindings := bindings s; _drag_data := _drag_data s; geom := geom s;
     floating := floating s; after_queue := v;
     stdout := stdout s; calls := calls s |}.

Definition set_stdout (v : list string) (s : World) : World :=
  {| alive := alive s; topmost := topmost s; undecorated := undecorated s;
     time_font := time_font s; ms_font := ms_font s; labels := labels s;
     bindings := bindings s; _drag_data := _drag_data s; geom := geom s;
     floating := floating s; after_queue := after_queue s;
     stdout := v; calls := calls s |}.

Definition set_calls (v : list Call) (s : World) : World :=
  {| alive := alive s; topmost := topmost s; undecorated := undecorated s;
     time_font := time_font s; ms_font := ms_font s; labels := labels s;
     bindings := bindings s; _drag_data := _drag_data s; geom := geom s;
     floating := floating s; after_queue := after_queue s;
     stdout := stdout s; calls := v |}.

(** *** Effects: state passing with exceptions

    A computation reads and updates the [World] and either returns a value
    or raises; the updates made before a [raise] stay, as in Python. *)

Inductive Res (A : Type) :=
| Val (a : A)
| Raised (e : exn).

Arguments Val {A} a.
Arguments Raised {A} e.

Definition M (A : Type) : Type := World -> Res A * World.

Definition ret {A : Type} (a : A) : M A := fun s => (Val a, s).

Definition bind {A B : Type} (c : M A) (k : A -> M B) : M B :=
  fun s =>
    match c s with
    | (Val a, s') => k a s'
    | (Raised e, s') => (Raised e, s')
    end.

Definition raise {A : Type} (e : exn) : M A := fun s => (Raised e, s).

Definition gets {A : Type} (f : World -> A) : M A := fun s => (Val (f s), s).

Definition modify (f : World -> World) : M unit := fun s => (Val tt, f s).

(** [try: body except <class>: handler] *)
Definition try_except {A : Type} (body : M A) (catches : exn -> bool)
    (handler : exn -> M A) : M A :=
  fun s =>
    match body s with
    | (Val a, s') => (Val a, s')
    | (Raised e, s') => if catches e then handler e s' else (Raised e, s')
    end.

Declare Scope clock_scope.
Delimit Scope clock_scope with clock.
Notation "x <- c ;; k" := (bind c (fun x => k))
  (at level 61, c at next level, right associativity) : clock_scope.
Notation "c ;; k" := (bind c (fun _ => k))
  (at level 61, right associativity) : clock_scope.
Local Open Scope clock_scope.

(** [for x in xs: body(x)] *)
Fixpoint for_each {A : Type} (xs : list A) (body : A -> M unit) : M unit :=
  match xs with
  | [] => ret tt
  | x :: rest => body x ;; for_each rest body
  end.

(** *** Toolkit calls *)

Definition record (c : Call) : M unit :=
  modify (fun s => set_calls (calls s ++ [c]) s).

(** [self.root.attributes("-topmost", True)] *)
Definition attributes_topmost (h : Host) : M unit :=
  record call_topmost ;;
  if topmost_ok h then modify (set_topmost true) else raise TclError.

(** [self.root.overrideredirect(True)] *)
Definition overrideredirect (h : Host) : M unit :=
  record call_overrideredirect ;;
  if overrideredirect_ok h then modify (set_undecorated true)
  else raise TclError.

(** [tkfont.Font(family=..., size=..., weight=...)] *)
Definition tkfont_Font (h : Host) (f : FontFamily) (sz : Z) (b : bool)
  : M Font :=
  record (call_Font f) ;;
  if font_ok h f then ret {| family := f; size := sz; bold := b |}
  else raise TclError.

(** [label.config(text=...)], also the [text=] option of [tk.Label]. *)
Definition config_text (w : Widget) (t : string) : M unit :=
  modify (fun s =>
    let l := labels s in
    match w with
    | Root => s
    | Hhmmss => set_labels {| hhmmss := t; dot := dot l; mmm := mmm l |} s
    | Dot => set_labels {| hhmmss := hhmmss l; dot := t; mmm := mmm l |} s
    | Mmm => set_labels {| hhmmss := hhmmss l; dot := dot l; mmm := t |} s
    end).

(** [w.bind(sequence, callback)]: the newest binding of a sequence on a
    widget shadows the older ones. *)
Definition bind_ (w : Widget) (q : Sequence) (cb : Callback) : M unit :=
  modify (fun s => set_bindings ((w, q, cb) :: bindings s) s).

(** [self.root.geometry(f"{w}x{h}+{x}+{y}")] *)
Definition geometry_full (w h x y : Z) : M unit :=
  modify (set_geom {| width := w; height := h; pos_x := x; pos_y := y |}).

(** [self.root.geometry(f"+{x}+{y}")]: the size part is absent, the size
    stays. *)
Definition geometry_pos (x y : Z) : M unit :=
  modify (fun s =>
    set_geom {| width := width (geom s); height := height (geom s);
                pos_x := x; pos_y := y |} s).

Definition winfo_x : M Z := gets (fun s => pos_x (geom s)).
Definition winfo_y : M Z := gets (fun s => pos_y (geom s)).

Definition print (line : string) : M unit :=
  modify (fun s => set_stdout (stdout s ++ [line]) s).

(** [self.root.after(delay_ms, self._update_time)] *)
Definition after (delay_ms : Z) : M unit :=
  modify (fun s => set_after_queue (after_queue s ++ [delay_ms]) s).

(** [self.root.destroy()]: the window is gone and with it the pending
    timers. *)
Definition destroy : M unit :=
  modify (fun s => set_after_queue [] (set_alive false s)).

(** The body of the [try] of [_make_macos_floating]: the Cocoa import,
    the window lookup and [setLevel_(NSFloatingWindowLevel)]. *)
Definition cocoa_setLevel (h : Host) : M unit :=
  record call_setLevel ;;
  if cocoa_ok h then modify (set_floating true) else raise ImportError.

(** *** The methods of [DesktopClock] *)

Record MouseEvent := {
  x_root : Z;
  y_root : Z
}.

(** Lines 103-108; [now_ns] is the reading of [time.perf_counter_ns()]. *)
Definition _schedule_next_tick (now_ns : Z) : M unit :=
  after (Tick.delay_ms now_ns).

(** Lines 97-101; [now] is the reading of [datetime.now()]. *)
Definition _update_time (now : DateTime) (now_ns : Z) : M unit :=
  config_text Hhmmss (strftime_HMS now) ;;
  config_text Mmm (format_mmm now) ;;
  _schedule_next_tick now_ns.

(** Lines 88-90 *)
Definition _on_start_move (event : MouseEvent) : M unit :=
  x <- winfo_x ;;
  modify (fun s =>
    set_drag_data {| drag_x := x_root event - x;
                     drag_y := drag_y (_drag_data s) |} s) ;;
  y <- winfo_y ;;
  modify (fun s =>
    set_drag_data {| drag_x := drag_x (_drag_data s);
                     drag_y := y_root event - y |} s).

(** Lines 92-95 *)
Definition _on_move (event : MouseEvent) : M unit :=
  dx <- gets (fun s => drag_x (_drag_data s)) ;;
  let x := x_root event - dx in
  dy <- gets (fun s => drag_y (_drag_data s)) ;;
  let y := y_root event - dy in
  geometry_pos x y.

Definition msg_floating_ok : string :=
  "macOS: Clock window elevated to floating level (NSFloatingWindowLevel)".

Definition msg_floating_failed (e : exn) : string :=
  ("macOS: Failed to set floating level: " ++ str_exn e)%string.

(** Lines 110-118 *)
Definition _make_macos_floating (h : Host) : M unit :=
  try_except
    (cocoa_setLevel h ;; print msg_floating_ok)
    is_Exception
    (fun e => print (msg_floating_failed e)).

(** Lines 29-86, after [tk.Tk()] *)
Definition __init__ (h : Host) : M unit :=
  try_except (attributes_topmost h) is_Exception (fun _ => ret tt) ;;
  try_except (overrideredirect h) is_Exception (fun _ => ret tt) ;;
  try_except
    (tf <- tkfont_Font h JetBrainsMono 28 true ;;
     modify (fun s => set_fonts (Some tf) (ms_font s) s) ;;
     mf <- tkfont_Font h JetBrainsMono 16 false ;;
     modify (fun s => set_fonts (time_font s) (Some mf) s))
    is_Exception
    (fun _ =>
     tf <- tkfont_Font h Courier 28 true ;;
     modify (fun s => set_fonts (Some tf) (ms_font s) s) ;;
     mf <- tkfont_Font h Courier 16 false ;;
     modify (fun s => set_fonts (time_font s) (Some mf) s)) ;;
  config_text Hhmmss "00:00:00" ;;
  config_text Dot "." ;;
  config_text Mmm "000" ;;
  modify (set_drag_data {| drag_x := 0; drag_y := 0 |}) ;;
  for_each [Root; Hhmmss; Dot; Mmm] (fun w =>
    bind_ w ButtonPress_1 cb_on_start_move ;;
    bind_ w B1_Motion cb_on_move ;;
    bind_ w Button_3 cb_destroy) ;;
  let w := reqwidth h Hhmmss + reqwidth h Dot + reqwidth h Mmm + 30 in
  let ht := Z.max (reqheight h Hhmmss) (reqheight h Mmm) + 20 in
  let sw := screenwidth h in
  geometry_full w ht (sw - w - 40) 40 ;;
  (if darwin h then _make_macos_floating h else ret tt) ;;
  _schedule_next_tick (start_ns h).

(** [DesktopClock()] *)
Definition DesktopClock (h : Host) : Res unit * World := __init__ h tk_Tk.

(** *** The event loop ([run], lines 120-124) *)

(** What [mainloop] can receive: a mouse event on a widget, the expiry of
    the pending timer (with the two clock readings the tick will make), or
    an exception raised into the loop from outside, such as the
    [KeyboardInterrupt] of SIGINT. *)
Inductive Event :=
| Mouse (target : Widget) (q : Sequence) (event : MouseEvent)
| Timer (now : DateTime) (now_ns : Z)
| Async (e : exn).

Definition Widget_eqb (a b : Widget) : bool :=
  match a, b with
  | Root, Root | Hhmmss, Hhmmss | Dot, Dot | Mmm, Mmm => true
  | _, _ => false
  end.

Definition Sequence_eqb (a b : Sequence) : bool :=
  match a, b with
  | ButtonPress_1, ButtonPress_1 | B1_Motion, B1_Motion
  | Button_3, Button_3 => true
  | _, _ => false
  end.

Fixpoint lookup_binding (bs : list (Widget * Sequence * Callback))
    (w : Widget) (q : Sequence) : option Callback :=
  match bs with
  | [] => None
  | (w', q', cb) :: rest =>
      if Widget_eqb w w' && Sequence_eqb q q' then Some cb
      else lookup_binding rest w q
  end.

Definition callback (cb : Callback) (event : MouseEvent) : M unit :=
  match cb with
  | cb_on_start_move => _on_start_move event
  | cb_on_move => _on_move event
  | cb_destroy => destroy
  end.

(** Tk runs a callback under its own handler: whatever it raises is
    reported and the loop goes on with the state reached. *)
Definition exec (c : M unit) (s : World) : World := snd (c s).

(** Tk's binding tags: an event on a label is offered to the label, then
    to its toplevel. *)
Definition bindtags (w : Widget) : list Widget :=
  match w with
  | Root => [Root]
  | _ => [w; Root]
  end.

(** Delivery along the tags stops once the window is destroyed. *)
Fixpoint deliver (tags : list Widget) (q : Sequence) (event : MouseEvent)
    (s : World) : World :=
  match tags with
  | [] => s
  | t :: rest =>
      if alive s then
        deliver rest q event
          match lookup_binding (bindings s) t q with
          | Some cb => exec (callback cb event) s
          | None => s
          end
      else s
  end.

(** One turn of the loop on a mouse or timer event. *)
Definition dispatch (ev : Event) (s : World) : World :=
  match ev with
  | Mouse target q event => deliver (bindtags target) q event s
  | Timer now now_ns =>
      match after_queue s with
      | [] => s
      | _ :: rest => exec (_update_time now now_ns) (set_after_queue rest s)
      end
  | Async _ => s
  end.

(** Where the process stands after a finite run of events: still inside
    [mainloop] waiting for the next one, or out of it with a result. *)
Inductive Outcome :=
| Waiting (s : World)
| Done (r : Res unit) (s : World).

(** [self.root.mainloop()]: returns when the window is destroyed, raises
    what is raised into it. *)
Fixpoint mainloop (evs : list Event) (s : World) : Outcome :=
  if alive s then
    match evs with
    | [] => Waiting s
    | Async e :: _ => Done (Raised e) s
    | ev :: rest => mainloop rest (dispatch ev s)
    end
  else Done (Val tt) s.

(** [run]: [try: mainloop() except KeyboardInterrupt: pass] *)
Definition run (evs : list Event) (s : World) : Outcome :=
  match mainloop evs s with
  | Done (Raised e) s' =>
      if is_KeyboardInterrupt e then Done (Val tt) s' else Done (Raised e) s'
  | o => o
  end.

(** How the process ends. *)
Inductive Status :=
| Running               (* still in the event loop *)
| Exit_0                (* the script ran to its end *)
| Uncaught (e : exn).   (* traceback, non-zero status *)

(** [if __name__ == "__main__": DesktopClock().run()] *)
Definition main (h : Host) (evs : list Event) : Status :=
  match DesktopClock h with
  | (Raised e, _) => Uncaught e
  | (Val _, s) =>
      match run evs s with
      | Waiting _ => Running
      | Done (Val _) _ => Exit_0
      | Done (Raised e) _ => Uncaught e
      end
  end.

(** Events that leave a drag in progress: motions and timer expiries. *)
Definition keeps_drag (ev : Event) : bool :=
  match ev with
  | Mouse _ B1_Motion _ => true
  | Timer _ _ => true
  | _ => false
  end.

Definition is_motion (ev : Event) : bool :=
  match ev with
  | Mouse _ B1_Motion _ => true
  | _ => false
  end.

Definition is_timer (ev : Event) : bool :=
  match ev with
  | Timer _ _ => true
  | _ => false
  end.

(** The callback [__init__] binds to each sequence, on every widget. *)
Definition handler_of (q : Sequence) : Callback :=
  match q with
  | ButtonPress_1 => cb_on_start_move
  | B1_Motion => cb_on_move
  | Button_3 => cb_destroy
  end.

(** Every widget answers every bound sequence with the callback of
    [__init__]. *)
Definition installed (s : World) : Prop :=
  forall (t : Widget) (q : Sequence),
    lookup_binding (bindings s) t q = Some (handler_of q).

(** Exactly one tick is pending, due in 1 to 16 ms. *)
Definition ticking (s : World) : Prop :=
  exists d : Z, after_queue s = [d] /\ 1 <= d <= Tick.UPDATE_INTERVAL_MS.

(** The world an outcome carries. *)
Definition world_of (o : Outcome) : World :=
  match o with
  | Waiting s => s
  | Done _ s => s
  end.

(** The binding table [__init__] leaves: the loop of lines 69-72 run over
    the four widgets, newest first. *)
Definition init_bindings : list (Widget * Sequence * Callback) :=
  flat_map (fun w => [(w, Button_3, cb_destroy); (w, B1_Motion, cb_on_move);
                      (w, ButtonPress_1, cb_on_start_move)])
           [Mmm; Dot; Hhmmss; Root].

(** The world a completed [__init__] leaves on host [h], in closed form;
    [init_ok] below proves that the code computes it. *)
Definition booted (h : Host) : World :=
  let fam := if font_ok h JetBrainsMono then JetBrainsMono else Courier in
  let w := reqwidth h Hhmmss + reqwidth h Dot + reqwidth h Mmm + 30 in
  {| alive := true;
     topmost := topmost_ok h;
     undecorated := overrideredirect_ok h;
     time_font := Some {| family := fam; size := 28; bold := true |};
     ms_font := Some {| family := fam; size := 16; bold := false |};
     labels := {| hhmmss := "00:00:00"; dot := "."; mmm := "000" |};
     bindings := init_bindings;
     _drag_data := {| drag_x := 0; drag_y := 0 |};
     geom := {| width := w;
                height := Z.max (reqheight h Hhmmss) (reqheight h Mmm) + 20;
                pos_x := screenwidth h - w - 40;
                pos_y := 40 |};
     floating := darwin h && cocoa_ok h;
     after_queue := [Tick.delay_ms (start_ns h)];
     stdout := if darwin h
               then [if cocoa_ok h then msg_floating_ok
                     else msg_floating_failed ImportError]
               else [];
     calls := [call_topmost; call_overrideredirect]
              ++ (if font_ok h JetBrainsMono
                  then [call_Font JetBrainsMono; call_Font JetBrainsMono]
                  else [call_Font JetBrainsMono; call_Font Courier;
                        call_Font Courier])
              ++ (if darwin h then [call_setLevel] else []) |}.

Fixpoint count_call (c : Call) (l : list Call) : nat :=
  match l with
  | [] => O
  | c' :: rest =>
      match c, c' with
      | call_topmost, call_topmost
      | call_overrideredirect, call_overrideredirect
      | call_setLevel, call_setLevel
      | call_Font JetBrainsMono, call_Font JetBrainsMono
      | call_Font Courier, call_Font Courier => S (count_call c rest)
      | _, _ => count_call c rest
      end
  end.

End Clock.

(** ** Sample inputs, for the instances below *)

Module Sample.

Import Format Clock.

(** 23:59:59.999500 *)
Definition sample_now : DateTime :=
  {| hour := 23; minute := 59; second := 59; microsecond := 999500 |}.

(** A macOS host without PyObjC and without the preferred font, whose
    window manager refuses the topmost attribute. *)
Definition sample_host : Host := {|
  topmost_ok := false;
  overrideredirect_ok := true;
  font_ok := fun f => match f with JetBrainsMono => false | Courier => true end;
  darwin := true;
  cocoa_ok := false;
  reqwidth := fun w =>
    match w with Root => 1 | Hhmmss => 150 | Dot => 12 | Mmm => 40 end;
  reqheight := fun w =>
    match w with Root => 1 | Hhmmss => 44 | Dot => 44 | Mmm => 26 end;
  screenwidth := 1920;
  start_ns := 123456789
|}.

Definition sample_boot : World := snd (DesktopClock sample_host).

Definition sample_press : MouseEvent := {| x_root := 1700; y_root := 50 |}.
Definition sample_motion : MouseEvent := {| x_root := 1000; y_root := 500 |}.

(** A press on the separator, a motion, a tick. *)
Definition sample_events : list Event :=
  [Mouse Dot ButtonPress_1 sample_press;
   Mouse Dot B1_Motion sample_motion;
   Timer sample_now 200000000].

Definition sample_world : World :=
  world_of (mainloop sample_events sample_boot).

(** What goes on during a second drag: a motion and a tick. *)
Definition sample_mid : list Event :=
  [Mouse Hhmmss B1_Motion sample_press; Timer sample_now 216000000].

(** A host on which every optional call succeeds. *)
Definition sample_linux : Host := {|
  topmost_ok := true;
  overrideredirect_ok := true;
  font_ok := fun _ => true;
  darwin := false;
  cocoa_ok := false;
  reqwidth := fun w =>
    match w with Root => 1 | Hhmmss => 150 | Dot => 12 | Mmm => 40 end;
  reqheight := fun w =>
    match w with Root => 1 | Hhmmss => 44 | Dot => 44 | Mmm => 26 end;
  screenwidth := 1280;
  start_ns := 16000000
|}.

(** A host with neither font family. *)
Definition sample_bare : Host := {|
  topmost_ok := true;
  overrideredirect_ok := false;
  font_ok := fun _ => false;
  darwin := false;
  cocoa_ok := false;
  reqwidth := fun _ => 1;
  reqheight := fun _ => 1;
  screenwidth := 800;
  start_ns := 0
|}.

End Sample.

(** * Properties *)

Import Tick Format Clock Sample.

(** ** Tick arithmetic *)

Lemma interval_ns_val : interval_ns = 16000000.
Proof. reflexivity. Qed.

Lemma interval_ns_pos : 0 < interval_ns.
Proof. rewrite interval_ns_val. lia. Qed.

(** Division algorithm for the interval, in the shape the proofs use. *)
Lemma now_split (t : Z) :
  t = interval_ns * (t / interval_ns) + t mod interval_ns /\
  0 <= t mod interval_ns < interval_ns.
Proof.
  split.
  - apply Z.div_mod. pose proof interval_ns_pos. lia.
  - apply Z.mod_pos_bound. exact interval_ns_pos.
Qed.

Lemma next_tick_gap (t : Z) :
  next_tick_ns t - t = interval_ns - t mod interval_ns.
Proof.
  unfold next_tick_ns. destruct (now_split t) as [E _]. lia.
Qed.

Lemma next_tick_multiple (t : Z) : next_tick_ns t mod interval_ns = 0.
Proof. unfold next_tick_ns. apply Z.mod_mul. pose proof interval_ns_pos. lia. Qed.

Lemma next_tick_gap_bounds (t : Z) : 0 < next_tick_ns t - t <= interval_ns.
Proof. rewrite next_tick_gap. destruct (now_split t) as [_ B]. lia. Qed.

(** Every multiple of the interval above [t] is at least [next_tick_ns t]. *)
Lemma next_tick_least (t m : Z) :
  m mod interval_ns = 0 -> t < m -> next_tick_ns t <= m.
Proof.
  intros Hm Hlt. pose proof interval_ns_pos as Hp.
  apply Z.mod_divide in Hm; [| lia]. destruct Hm as [k ->].
  unfold next_tick_ns.
  apply Z.mul_le_mono_nonneg_r; [lia |].
  assert (t / interval_ns < k); [| lia].
  apply Z.div_lt_upper_bound; lia.
Qed.

Lemma ceil_div_not_multiple (t : Z) :
  t mod interval_ns <> 0 -> ceil_div t interval_ns = t / interval_ns + 1.
Proof.
  intros Hnz. unfold ceil_div. pose proof interval_ns_pos as Hp.
  destruct (now_split t) as [E B].
  assert (Hq : (- t) / interval_ns = - (t / interval_ns) - 1); [| lia].
  symmetry. apply Z.div_unique with (r := interval_ns - t mod interval_ns); lia.
Qed.

Lemma delay_ms_quot (t : Z) :
  int_truediv (next_tick_ns t - t) 1000000 = (next_tick_ns t - t) / 1000000.
Proof.
  unfold int_truediv. pose proof (next_tick_gap_bounds t).
  apply Z.quot_div_nonneg; lia.
Qed.

Lemma delay_ms_bounds (t : Z) : 1 <= delay_ms t <= UPDATE_INTERVAL_MS.
Proof.
  unfold delay_ms. rewrite delay_ms_quot.
  pose proof (next_tick_gap_bounds t) as B. rewrite interval_ns_val in B.
  assert ((next_tick_ns t - t) / 1000000 <= 16).
  { apply Z.div_le_upper_bound; lia. }
  unfold UPDATE_INTERVAL_MS. lia.
Qed.


Lemma ceil_div_multiple (t : Z) :
  t mod interval_ns = 0 -> ceil_div t interval_ns = t / interval_ns.
Proof.
  intros Hz. unfold ceil_div. pose proof interval_ns_pos as Hp.
  destruct (now_split t) as [E _].
  assert (Hq : (- t) / interval_ns = - (t / interval_ns)); [| lia].
  symmetry. apply Z.div_unique with (r := 0); lia.
Qed.

(** What [_schedule_next_tick] does to the world: one more pending timer,
    nothing else. *)
Lemma schedule_next_tick_exec (now_ns : Z) (s : World) :
  exec (_schedule_next_tick now_ns) s
  = set_after_queue (after_queue s ++ [delay_ms now_ns]) s.
Proof. reflexivity. Qed.

(** C1. For a monotonic reading [t >= 0] and the interval of 16 ms in
    nanoseconds, the next tick of the scheduling step is a multiple of the
    interval, lies strictly after [t], and is at most one interval away. *)
Theorem C1_tick_alignment (t : Z) (Ht : 0 <= t) :
  interval_ns = 16 * 1000000 /\
  next_tick_ns t mod interval_ns = 0 /\
  next_tick_ns t > t /\
  next_tick_ns t - t <= interval_ns.
Proof.
  pose proof (next_tick_gap_bounds t) as B.
  repeat split; try lia.
  apply next_tick_multiple.
Qed.

Lemma C1_tick_alignment_witness :
  0 <= 123456789 /\
  (interval_ns = 16 * 1000000 /\
   next_tick_ns 123456789 mod interval_ns = 0 /\
   next_tick_ns 123456789 > 123456789 /\
   next_tick_ns 123456789 - 123456789 <= interval_ns).
Proof. split; [lia | apply (C1_tick_alignment 123456789); lia]. Defined.

(** C2, as the text has it, fails when [now] is on a boundary: at
    [now = 0] the code schedules the tick at 16_000_000 ns with a delay of
    16 ms, where [ceil(now / interval) * interval] is 0. *)
Lemma C2_counterexample :
  ~ (next_tick_ns 0 = spec_next_tick 0 interval_ns /\
     delay_ms 0 = spec_delay_ms 0 interval_ns).
Proof. intros [H _]. vm_compute in H. discriminate H. Qed.

(** Off a boundary the two next ticks agree and the delays can still
    differ: half a millisecond before the boundary the code waits 1 ms,
    where converting [max(1, next_tick - now)] nanoseconds gives 0. *)
Lemma delay_conversion_order :
  next_tick_ns 15500000 = spec_next_tick 15500000 interval_ns /\
  delay_ms 15500000 = 1 /\
  spec_delay_ms 15500000 interval_ns = 0.
Proof. repeat split. Qed.

(** C2, amended. The next tick is [(now // interval + 1) * interval]: the
    rounding up [ceil(now / interval) * interval] when [now] is not a
    multiple of the interval, and one interval more when it is.  The delay
    given to the timer is the gap in whole milliseconds (floor), raised to
    1 when that is 0, and it is what the scheduling step queues. *)
Theorem C2_next_tick_and_delay (now : Z) (s : World) :
  next_tick_ns now
  = (if now mod interval_ns =? 0
     then spec_next_tick now interval_ns + interval_ns
     else spec_next_tick now interval_ns) /\
  delay_ms now = Z.max 1 ((next_tick_ns now - now) / 1000000) /\
  after_queue (exec (_schedule_next_tick now) s)
  = after_queue s ++ [delay_ms now].
Proof.
  split; [| split].
  - unfold spec_next_tick, next_tick_ns.
    destruct (Z.eqb_spec (now mod interval_ns) 0) as [Hz | Hnz].
    + rewrite (ceil_div_multiple now Hz). lia.
    + rewrite (ceil_div_not_multiple now Hnz). reflexivity.
  - unfold delay_ms. rewrite delay_ms_quot. reflexivity.
  - reflexivity.
Qed.

(** ** Millisecond field *)

(** The zero-padded writing of every value below 1000, checked value by
    value. *)
Lemma format_0d_3_table :
  forallb (fun n => String.eqb (format_0d 3 (Z.of_nat n))
                               (three_digits (Z.of_nat n)))
          (seq 0 1000) = true.
Proof. vm_compute. reflexivity. Qed.

Lemma format_0d_3_digits (q : Z) :
  0 <= q < 1000 -> format_0d 3 q = three_digits q.
Proof.
  intros Hq.
  pose proof format_0d_3_table as T.
  rewrite forallb_forall in T.
  specialize (T (Z.to_nat q)).
  rewrite Z2Nat.id in T by lia.
  apply String.eqb_eq, T, in_seq. lia.
Qed.

Lemma three_digits_length (q : Z) : String.length (three_digits q) = 3%nat.
Proof. reflexivity. Qed.

Lemma millis_of_microsecond (us : Z) :
  0 <= us <= 999999 ->
  int_truediv us 1000 = us / 1000 /\ 0 <= us / 1000 < 1000.
Proof.
  intros Hus. split.
  - unfold int_truediv. apply Z.quot_div_nonneg; lia.
  - split.
    + apply Z.div_pos; lia.
    + apply Z.div_lt_upper_bound; lia.
Qed.

(** The tick writes the two time labels and leaves the separator. *)
Lemma update_time_labels (now : DateTime) (now_ns : Z) (s : World) :
  labels (exec (_update_time now now_ns) s)
  = {| hhmmss := strftime_HMS now; dot := dot (labels s);
       mmm := format_mmm now |}.
Proof. reflexivity. Qed.

(** C3. For a microsecond value in [0, 999999] the millisecond field the
    tick displays is the quotient by 1000 written with exactly three
    digits, zeros in front; 999_500 gives ["999"] and 0 gives ["000"]. *)
Theorem C3_millisecond_field (now : DateTime) (now_ns : Z) (s : World)
    (Hus : 0 <= microsecond now <= 999999) :
  mmm (labels (exec (_update_time now now_ns) s))
  = three_digits (microsecond now / 1000) /\
  String.length (mmm (labels (exec (_update_time now now_ns) s))) = 3%nat /\
  format_0d 3 (int_truediv 999500 1000) = "999"%string /\
  format_0d 3 (int_truediv 0 1000) = "000"%string.
Proof.
  destruct (millis_of_microsecond _ Hus) as [Eq Hq].
  rewrite update_time_labels. cbn [mmm]. unfold format_mmm.
  rewrite Eq, (format_0d_3_digits _ Hq).
  repeat split.
Qed.

Lemma C3_millisecond_field_witness :
  0 <= microsecond sample_now <= 999999 /\
  (mmm (labels (exec (_update_time sample_now 0) tk_Tk))
   = three_digits (microsecond sample_now / 1000) /\
   String.length (mmm (labels (exec (_update_time sample_now 0) tk_Tk)))
   = 3%nat /\
   format_0d 3 (int_truediv 999500 1000) = "999"%string /\
   format_0d 3 (int_truediv 0 1000) = "000"%string).
Proof.
  split.
  - cbn. lia.
  - apply (C3_millisecond_field sample_now 0 tk_Tk). cbn. lia.
Defined.

(** ** Initialisation *)

(** Case analysis on what the host answers to the guarded calls. *)
Ltac boot_cases :=
  match goal with
  | |- context [DesktopClock ?h] =>
      destruct h as [a b f d c rw rh sw ns];
      unfold DesktopClock, __init__, _make_macos_floating, cocoa_setLevel,
        attributes_topmost, overrideredirect, tkfont_Font, booted;
      cbn [topmost_ok overrideredirect_ok font_ok darwin cocoa_ok
           reqwidth reqheight screenwidth start_ns] in *;
      destruct a, b, d, c;
      destruct (f JetBrainsMono) eqn:Hpref; destruct (f Courier) eqn:Hfall
  end.

(** With one of the two font families available [__init__] completes. *)
Lemma init_ok (h : Host) :
  font_ok h JetBrainsMono || font_ok h Courier = true ->
  DesktopClock h = (Val tt, booted h).
Proof. boot_cases; intros Hok; try discriminate Hok; reflexivity. Qed.

(** With neither, the unguarded fallback raises out of [__init__]. *)
Lemma init_fatal (h : Host) :
  font_ok h JetBrainsMono || font_ok h Courier = false ->
  fst (DesktopClock h) = Raised TclError.
Proof. boot_cases; intros Hok; try discriminate Hok; reflexivity. Qed.

Lemma init_inv (h : Host) (s : World) :
  DesktopClock h = (Val tt, s) -> s = booted h.
Proof.
  intros E.
  destruct (font_ok h JetBrainsMono || font_ok h Courier) eqn:F.
  - rewrite (init_ok h F) in E. inversion E. reflexivity.
  - apply init_fatal in F. rewrite E in F. discriminate F.
Qed.

Lemma booted_installed (h : Host) : installed (booted h).
Proof. intros t q. destruct t, q; reflexivity. Qed.

Lemma booted_ticking (h : Host) : ticking (booted h).
Proof.
  exists (delay_ms (start_ns h)). split; [reflexivity | apply delay_ms_bounds].
Qed.

(** ** Callbacks and the event loop *)

Lemma callback_effect (cb : Callback) (ev : MouseEvent) (s : World) :
  exec (callback cb ev) s
  = match cb with
    | cb_on_start_move =>
        set_drag_data {| drag_x := x_root ev - pos_x (geom s);
                         drag_y := y_root ev - pos_y (geom s) |} s
    | cb_on_move =>
        set_geom {| width := width (geom s); height := height (geom s);
                    pos_x := x_root ev - drag_x (_drag_data s);
                    pos_y := y_root ev - drag_y (_drag_data s) |} s
    | cb_destroy => set_after_queue [] (set_alive false s)
    end.
Proof. destruct cb; reflexivity. Qed.

Lemma callback_alive (cb : Callback) (ev : MouseEvent) (s : World) :
  alive (exec (callback cb ev) s)
  = match cb with cb_destroy => false | _ => alive s end.
Proof. destruct cb; reflexivity. Qed.

Lemma callback_bindings (cb : Callback) (ev : MouseEvent) (s : World) :
  bindings (exec (callback cb ev) s) = bindings s.
Proof. destruct cb; reflexivity. Qed.

Lemma callback_size (cb : Callback) (ev : MouseEvent) (s : World) :
  width (geom (exec (callback cb ev) s)) = width (geom s) /\
  height (geom (exec (callback cb ev) s)) = height (geom s).
Proof. destruct cb; split; reflexivity. Qed.

(** Running a callback a second time on the same event changes nothing:
    the label's binding and the toplevel's agree. *)
Lemma callback_idem (cb : Callback) (ev : MouseEvent) (s : World) :
  exec (callback cb ev) (exec (callback cb ev) s) = exec (callback cb ev) s.
Proof. destruct cb; reflexivity. Qed.

Lemma deliver_installed (t : Widget) (q : Sequence) (ev : MouseEvent)
    (s : World) :
  installed s -> alive s = true ->
  deliver (bindtags t) q ev s = exec (callback (handler_of q) ev) s.
Proof.
  intros I A.
  assert (Two : deliver [t; Root] q ev s = exec (callback (handler_of q) ev) s).
  { cbn [deliver]. rewrite A, (I t q), callback_alive, callback_bindings, (I Root q).
    destruct q; cbn [handler_of]; rewrite ?A, ?callback_idem; reflexivity. }
  destruct t; try exact Two.
  cbn [bindtags deliver]. rewrite A, (I Root q). reflexivity.
Qed.

Lemma dispatch_mouse (t : Widget) (q : Sequence) (ev : MouseEvent)
    (s : World) :
  installed s -> alive s = true ->
  dispatch (Mouse t q ev) s = exec (callback (handler_of q) ev) s.
Proof. intros I A. apply deliver_installed; assumption. Qed.

Lemma dispatch_installed (ev : Event) (s : World) :
  installed s -> alive s = true -> installed (dispatch ev s).
Proof.
  intros I A. destruct ev as [t q e | now ns | e].
  - rewrite dispatch_mouse by assumption. intros t' q'.
    rewrite callback_bindings. apply I.
  - cbn [dispatch]. destruct (after_queue s); exact I.
  - exact I.
Qed.

Lemma dispatch_ticking (ev : Event) (s : World) :
  installed s -> alive s = true -> ticking s ->
  alive (dispatch ev s) = true -> ticking (dispatch ev s).
Proof.
  intros I A T. destruct ev as [t q e | now ns | e].
  - rewrite dispatch_mouse by assumption.
    destruct q; cbn [handler_of]; intros A'; try exact T.
    rewrite callback_alive in A'. discriminate A'.
  - intros _. destruct T as (d & Hq & _). cbn [dispatch]. rewrite Hq.
    exists (delay_ms ns). split; [reflexivity | apply delay_ms_bounds].
  - intros _. exact T.
Qed.

Lemma mainloop_dead (evs : list Event) (s : World) :
  alive s = false -> mainloop evs s = Done (Val tt) s.
Proof. intros A. destruct evs; cbn [mainloop]; rewrite A; reflexivity. Qed.

Lemma mainloop_nil (s : World) : alive s = true -> mainloop [] s = Waiting s.
Proof. intros A. cbn [mainloop]. rewrite A. reflexivity. Qed.

Lemma mainloop_async (e : exn) (rest : list Event) (s : World) :
  alive s = true -> mainloop (Async e :: rest) s = Done (Raised e) s.
Proof. intros A. cbn [mainloop]. rewrite A. reflexivity. Qed.

Lemma mainloop_mouse (t : Widget) (q : Sequence) (e : MouseEvent)
    (rest : list Event) (s : World) :
  alive s = true ->
  mainloop (Mouse t q e :: rest) s = mainloop rest (dispatch (Mouse t q e) s).
Proof. intros A. cbn [mainloop]. rewrite A. reflexivity. Qed.

Lemma mainloop_timer (now : DateTime) (ns : Z) (rest : list Event)
    (s : World) :
  alive s = true ->
  mainloop (Timer now ns :: rest) s = mainloop rest (dispatch (Timer now ns) s).
Proof. intros A. cbn [mainloop]. rewrite A. reflexivity. Qed.

(** A loop that is still waiting was alive all along. *)
Lemma mainloop_step (ev : Event) (rest : list Event) (s0 s : World) :
  mainloop (ev :: rest) s0 = Waiting s ->
  alive s0 = true /\ alive (dispatch ev s0) = true /\
  mainloop rest (dispatch ev s0) = Waiting s.
Proof.
  intros H. destruct (alive s0) eqn:A.
  2:{ rewrite mainloop_dead in H by assumption. discriminate H. }
  destruct ev as [t q e | now ns | e].
  - rewrite mainloop_mouse in H by assumption.
    destruct (alive (dispatch (Mouse t q e) s0)) eqn:A'; auto.
    rewrite mainloop_dead in H by assumption. discriminate H.
  - rewrite mainloop_timer in H by assumption.
    destruct (alive (dispatch (Timer now ns) s0)) eqn:A'; auto.
    rewrite mainloop_dead in H by assumption. discriminate H.
  - rewrite mainloop_async in H by assumption. discriminate H.
Qed.

Lemma mainloop_waiting_nil (s0 s : World) :
  mainloop [] s0 = Waiting s -> alive s0 = true /\ s = s0.
Proof.
  intros H. destruct (alive s0) eqn:A.
  - rewrite mainloop_nil in H by assumption. inversion H. auto.
  - rewrite mainloop_dead in H by assumption. discriminate H.
Qed.

Lemma mainloop_app (pre evs : list Event) (s0 s : World) :
  mainloop pre s0 = Waiting s ->
  mainloop (pre ++ evs) s0 = mainloop evs s.
Proof.
  revert s0. induction pre as [| ev pre IH]; intros s0 H.
  - apply mainloop_waiting_nil in H. destruct H as [_ ->]. reflexivity.
  - destruct (mainloop_step _ _ _ _ H) as (A & _ & H').
    rewrite <- (IH _ H'). cbn [app].
    destruct ev as [t q e | now ns | e].
    + apply mainloop_mouse, A.
    + apply mainloop_timer, A.
    + rewrite mainloop_async in H by assumption. discriminate H.
Qed.

(** The invariant of the running clock: the window exists, the bindings of
    [__init__] are in place and exactly one tick is pending. *)
Lemma mainloop_invariant (evs : list Event) (s0 s : World) :
  installed s0 -> ticking s0 ->
  mainloop evs s0 = Waiting s ->
  alive s = true /\ installed s /\ ticking s.
Proof.
  revert s0. induction evs as [| ev evs IH]; intros s0 I T H.
  - apply mainloop_waiting_nil in H. destruct H as [A ->]. auto.
  - destruct (mainloop_step _ _ _ _ H) as (A & A' & H').
    apply (IH (dispatch ev s0)); trivial.
    + apply dispatch_installed; assumption.
    + apply dispatch_ticking; assumption.
Qed.

Lemma running_invariant (h : Host) (evs : list Event) (s0 s : World) :
  DesktopClock h = (Val tt, s0) ->
  mainloop evs s0 = Waiting s ->
  alive s = true /\ installed s /\ ticking s.
Proof.
  intros E H. apply init_inv in E. subst s0.
  apply (mainloop_invariant evs (booted h)); trivial.
  - apply booted_installed.
  - apply booted_ticking.
Qed.

(** ** Dragging *)

(** An event that keeps the drag leaves the window alive, the bindings in
    place and the recorded offset untouched. *)
Lemma keeps_drag_step (ev : Event) (s : World) :
  installed s -> alive s = true -> keeps_drag ev = true ->
  alive (dispatch ev s) = true /\ installed (dispatch ev s) /\
  _drag_data (dispatch ev s) = _drag_data s.
Proof.
  intros I A K. split; [| split].
  - destruct ev as [t q e | now ns | e]; try discriminate K.
    + destruct q; try discriminate K.
      rewrite dispatch_mouse, callback_alive by assumption. exact A.
    + cbn [dispatch]. destruct (after_queue s); exact A.
  - apply dispatch_installed; assumption.
  - destruct ev as [t q e | now ns | e]; try discriminate K.
    + destruct q; try discriminate K.
      rewrite dispatch_mouse by assumption. reflexivity.
    + cbn [dispatch]. destruct (after_queue s); reflexivity.
Qed.

Lemma keeps_drag_run (mid : list Event) (s : World) :
  installed s -> alive s = true -> forallb keeps_drag mid = true ->
  exists s', mainloop mid s = Waiting s' /\ alive s' = true /\
             installed s' /\ _drag_data s' = _drag_data s.
Proof.
  revert s. induction mid as [| ev mid IH]; intros s I A K.
  - exists s. rewrite mainloop_nil by assumption. auto.
  - cbn [forallb] in K. apply andb_prop in K. destruct K as [K1 K2].
    destruct (keeps_drag_step ev s I A K1) as (A' & I' & D').
    destruct (IH _ I' A' K2) as (s' & H & As & Is & Ds).
    exists s'. rewrite <- D', <- Ds. repeat split; trivial.
    rewrite <- H. destruct ev as [t q e | now ns | e]; try discriminate K1.
    + apply mainloop_mouse, A.
    + apply mainloop_timer, A.
Qed.

(** C4. Once a primary-button press has recorded the offset between the
    press point and the window's corner, every later motion event of the
    drag, whatever motions and ticks came between, puts the window's
    top-left at the cursor position minus that offset. *)
Theorem C4_drag_invariant (h : Host) (pre mid : list Event) (s0 s : World)
    (t1 t2 : Widget) (press motion : MouseEvent)
    (Hinit : DesktopClock h = (Val tt, s0))
    (Hpre : mainloop pre s0 = Waiting s)
    (Hmid : forallb keeps_drag mid = true) :
  exists s',
    mainloop (pre ++ Mouse t1 ButtonPress_1 press
                  :: mid ++ [Mouse t2 B1_Motion motion]) s0 = Waiting s' /\
    _drag_data s' = {| drag_x := x_root press - pos_x (geom s);
                       drag_y := y_root press - pos_y (geom s) |} /\
    pos_x (geom s') = x_root motion - (x_root press - pos_x (geom s)) /\
    pos_y (geom s') = y_root motion - (y_root press - pos_y (geom s)).
Proof.
  destruct (running_invariant h pre s0 s Hinit Hpre) as (A & I & _).
  rewrite (mainloop_app pre _ s0 s Hpre).
  rewrite mainloop_mouse by assumption.
  pose proof (dispatch_installed (Mouse t1 ButtonPress_1 press) s I A) as I1.
  rewrite dispatch_mouse in * by assumption. cbn [handler_of] in *.
  set (s1 := exec (callback cb_on_start_move press) s) in *.
  assert (A1 : alive s1 = true) by exact A.
  destruct (keeps_drag_run mid s1 I1 A1 Hmid) as (s2 & H2 & A2 & I2 & D2).
  rewrite (mainloop_app mid _ s1 s2 H2).
  rewrite mainloop_mouse, dispatch_mouse by assumption. cbn [handler_of].
  exists (exec (callback cb_on_move motion) s2).
  rewrite mainloop_nil by (rewrite callback_alive; exact A2).
  rewrite callback_effect. cbn [set_geom _drag_data geom pos_x pos_y].
  rewrite D2. repeat split.
Qed.

Lemma sample_boot_ok : DesktopClock sample_host = (Val tt, sample_boot).
Proof. vm_compute. reflexivity. Qed.

Lemma sample_world_ok : mainloop sample_events sample_boot = Waiting sample_world.
Proof. vm_compute. reflexivity. Qed.

Lemma C4_drag_invariant_witness :
  exists s',
    mainloop (sample_events ++ Mouse Dot ButtonPress_1 sample_press
                  :: sample_mid ++ [Mouse Mmm B1_Motion sample_motion])
             sample_boot = Waiting s' /\
    _drag_data s'
    = {| drag_x := x_root sample_press - pos_x (geom sample_world);
         drag_y := y_root sample_press - pos_y (geom sample_world) |} /\
    pos_x (geom s')
    = x_root sample_motion
      - (x_root sample_press - pos_x (geom sample_world)) /\
    pos_y (geom s')
    = y_root sample_motion
      - (y_root sample_press - pos_y (geom sample_world)).
Proof.
  apply (C4_drag_invariant sample_host sample_events sample_mid sample_boot
           sample_world Dot Mmm sample_press sample_motion).
  - vm_compute. reflexivity.
  - vm_compute. reflexivity.
  - vm_compute. reflexivity.
Defined.

(** ** Startup layout *)

(** C5. Initialisation gives the window the width [w1 + w2 + w3 + 30] and
    the height [max(h1, h3) + 20], and places it at
    [screen_width - width - 40] from the left and 40 from the top. *)
Theorem C5_startup_layout (h : Host) (s0 : World)
    (Hinit : DesktopClock h = (Val tt, s0)) :
  width (geom s0)
  = reqwidth h Hhmmss + reqwidth h Dot + reqwidth h Mmm + 30 /\
  height (geom s0) = Z.max (reqheight h Hhmmss) (reqheight h Mmm) + 20 /\
  pos_x (geom s0) = screenwidth h - width (geom s0) - 40 /\
  pos_y (geom s0) = 40.
Proof.
  apply init_inv in Hinit. subst s0.
  cbn [booted geom width height pos_x pos_y]. auto.
Qed.

Lemma C5_startup_layout_witness :
  width (geom sample_boot)
  = reqwidth sample_host Hhmmss + reqwidth sample_host Dot
    + reqwidth sample_host Mmm + 30 /\
  height (geom sample_boot)
  = Z.max (reqheight sample_host Hhmmss) (reqheight sample_host Mmm) + 20 /\
  pos_x (geom sample_boot)
  = screenwidth sample_host - width (geom sample_boot) - 40 /\
  pos_y (geom sample_boot) = 40.
Proof.
  apply (C5_startup_layout sample_host sample_boot).
  vm_compute. reflexivity.
Defined.

(** ** Dismissal *)

Lemma run_done_val (evs : list Event) (s s' : World) :
  mainloop evs s = Done (Val tt) s' -> run evs s = Done (Val tt) s'.
Proof. intros H. unfold run. rewrite H. reflexivity. Qed.

(** C6. A secondary-button event on the window or on any label, whatever
    happened before (a drag may be under way), destroys the window: the
    event loop returns there and then, the events that follow are not
    handled, the window is where the last handled event left it, and the
    process ends normally. *)
Theorem C6_right_click_exits (h : Host) (pre rest : list Event)
    (s0 s : World) (t : Widget) (click : MouseEvent)
    (Hinit : DesktopClock h = (Val tt, s0))
    (Hpre : mainloop pre s0 = Waiting s) :
  run (pre ++ Mouse t Button_3 click :: rest) s0
  = Done (Val tt) (exec destroy s) /\
  alive (exec destroy s) = false /\
  after_queue (exec destroy s) = [] /\
  geom (exec destroy s) = geom s /\
  main h (pre ++ Mouse t Button_3 click :: rest) = Exit_0.
Proof.
  destruct (running_invariant h pre s0 s Hinit Hpre) as (A & I & _).
  assert (R : run (pre ++ Mouse t Button_3 click :: rest) s0
              = Done (Val tt) (exec destroy s)).
  { apply run_done_val. rewrite (mainloop_app pre _ s0 s Hpre).
    rewrite mainloop_mouse, dispatch_mouse by assumption.
    apply mainloop_dead. reflexivity. }
  repeat split; trivial.
  unfold main. rewrite Hinit, R. reflexivity.
Qed.

Lemma C6_right_click_exits_witness :
  run ((sample_events ++ [Mouse Dot ButtonPress_1 sample_press])
       ++ Mouse Hhmmss Button_3 sample_motion
          :: [Mouse Dot B1_Motion sample_motion]) sample_boot
  = Done (Val tt)
      (exec destroy
         (world_of (mainloop (sample_events
                              ++ [Mouse Dot ButtonPress_1 sample_press])
                             sample_boot))) /\
  alive (exec destroy
           (world_of (mainloop (sample_events
                                ++ [Mouse Dot ButtonPress_1 sample_press])
                               sample_boot))) = false /\
  after_queue (exec destroy
           (world_of (mainloop (sample_events
                                ++ [Mouse Dot ButtonPress_1 sample_press])
                               sample_boot))) = [] /\
  geom (exec destroy
           (world_of (mainloop (sample_events
                                ++ [Mouse Dot ButtonPress_1 sample_press])
                               sample_boot)))
  = geom (world_of (mainloop (sample_events
                              ++ [Mouse Dot ButtonPress_1 sample_press])
                             sample_boot)) /\
  main sample_host
    ((sample_events ++ [Mouse Dot ButtonPress_1 sample_press])
     ++ Mouse Hhmmss Button_3 sample_motion
        :: [Mouse Dot B1_Motion sample_motion]) = Exit_0.
Proof.
  apply (C6_right_click_exits sample_host
           (sample_events ++ [Mouse Dot ButtonPress_1 sample_press])
           [Mouse Dot B1_Motion sample_motion] sample_boot
           (world_of (mainloop (sample_events
                                ++ [Mouse Dot ButtonPress_1 sample_press])
                               sample_boot))
           Hhmmss sample_motion).
  - vm_compute. reflexivity.
  - vm_compute. reflexivity.
Defined.

(** ** The tick loop *)

Lemma update_time_queue (now : DateTime) (now_ns : Z) (s : World) :
  after_queue (exec (_update_time now now_ns) s)
  = after_queue s ++ [delay_ms now_ns].
Proof. reflexivity. Qed.

(** C7. While the process lives the tick loop does not stop: every state
    the running clock reaches has exactly one tick pending, due in 1 to
    16 ms, the tick that fires leaves exactly one pending again, and every
    run of the tick handler, in any state, ends by queueing the next one. *)
Theorem C7_tick_loop_never_stops (h : Host) (evs : list Event)
    (s0 s : World) (now : DateTime) (now_ns : Z)
    (Hinit : DesktopClock h = (Val tt, s0))
    (Hrun : mainloop evs s0 = Waiting s) :
  ticking s /\
  mainloop (evs ++ [Timer now now_ns]) s0
  = Waiting (dispatch (Timer now now_ns) s) /\
  ticking (dispatch (Timer now now_ns) s) /\
  (forall (s1 : World) (now1 : DateTime) (ns1 : Z),
      after_queue (exec (_update_time now1 ns1) s1)
      = after_queue s1 ++ [delay_ms ns1]).
Proof.
  destruct (running_invariant h evs s0 s Hinit Hrun) as (A & I & T).
  assert (A' : alive (dispatch (Timer now now_ns) s) = true).
  { cbn [dispatch]. destruct (after_queue s); exact A. }
  repeat split.
  - exact T.
  - rewrite (mainloop_app evs _ s0 s Hrun), mainloop_timer by assumption.
    apply mainloop_nil, A'.
  - apply dispatch_ticking; assumption.
Qed.

Lemma C7_tick_loop_never_stops_witness :
  ticking sample_world /\
  mainloop (sample_events ++ [Timer sample_now 216000001]) sample_boot
  = Waiting (dispatch (Timer sample_now 216000001) sample_world) /\
  ticking (dispatch (Timer sample_now 216000001) sample_world) /\
  (forall (s1 : World) (now1 : DateTime) (ns1 : Z),
      after_queue (exec (_update_time now1 ns1) s1)
      = after_queue s1 ++ [delay_ms ns1]).
Proof.
  apply (C7_tick_loop_never_stops sample_host sample_events sample_boot
           sample_world sample_now 216000001).
  - vm_compute. reflexivity.
  - vm_compute. reflexivity.
Defined.

(** ** Platform failures at startup *)

(** C8. None of the three platform failures stops the startup: whatever
    the host answers to the topmost attribute, to the native floating
    level and to the preferred font (the fallback family being loadable),
    [__init__] runs to its last statement.  Each call is issued once: the
    topmost attribute once, the native block once (on macOS only), the
    preferred family once when it fails (twice, one per font object, when
    it loads).  A refused attribute and a missing font print nothing; a
    failed native call prints its diagnostic. *)
Theorem C8_capability_failures_nonfatal (h : Host)
    (Hfallback : font_ok h Courier = true) :
  exists s : World,
    DesktopClock h = (Val tt, s) /\
    alive s = true /\ ticking s /\
    topmost s = topmost_ok h /\
    count_call call_topmost (calls s) = 1%nat /\
    count_call (call_Font JetBrainsMono) (calls s)
    = (if font_ok h JetBrainsMono then 2 else 1)%nat /\
    time_font s
    = Some {| family := if font_ok h JetBrainsMono then JetBrainsMono
                        else Courier;
              size := 28; bold := true |} /\
    ms_font s
    = Some {| family := if font_ok h JetBrainsMono then JetBrainsMono
                        else Courier;
              size := 16; bold := false |} /\
    count_call call_setLevel (calls s) = (if darwin h then 1 else 0)%nat /\
    floating s = darwin h && cocoa_ok h /\
    stdout s = (if darwin h
                then [if cocoa_ok h then msg_floating_ok
                      else msg_floating_failed ImportError]
                else []).
Proof.
  exists (booted h). split.
  - apply init_ok. rewrite Hfallback. apply orb_true_r.
  - split; [reflexivity |]. split; [apply booted_ticking |].
    cbn [booted topmost calls time_font ms_font floating stdout].
    destruct (font_ok h JetBrainsMono), (darwin h); repeat split.
Qed.

Lemma C8_capability_failures_nonfatal_witness :
  exists s : World,
    DesktopClock sample_host = (Val tt, s) /\
    alive s = true /\ ticking s /\
    topmost s = topmost_ok sample_host /\
    count_call call_topmost (calls s) = 1%nat /\
    count_call (call_Font JetBrainsMono) (calls s)
    = (if font_ok sample_host JetBrainsMono then 2 else 1)%nat /\
    time_font s
    = Some {| family := if font_ok sample_host JetBrainsMono
                        then JetBrainsMono else Courier;
              size := 28; bold := true |} /\
    ms_font s
    = Some {| family := if font_ok sample_host JetBrainsMono
                        then JetBrainsMono else Courier;
              size := 16; bold := false |} /\
    count_call call_setLevel (calls s)
    = (if darwin sample_host then 1 else 0)%nat /\
    floating s = darwin sample_host && cocoa_ok sample_host /\
    stdout s = (if darwin sample_host
                then [if cocoa_ok sample_host then msg_floating_ok
                      else msg_floating_failed ImportError]
                else []).
Proof. apply (C8_capability_failures_nonfatal sample_host). reflexivity. Defined.

(** ** Window size *)

Lemma deliver_size (tags : list Widget) (q : Sequence) (ev : MouseEvent)
    (s : World) :
  width (geom (deliver tags q ev s)) = width (geom s) /\
  height (geom (deliver tags q ev s)) = height (geom s).
Proof.
  revert s. induction tags as [| t tags IH]; intros s; [auto |].
  cbn [deliver]. destruct (alive s); [| auto].
  destruct (lookup_binding (bindings s) t q) as [cb |]; [| apply IH].
  destruct (IH (exec (callback cb ev) s)) as [Hw Hh].
  destruct (callback_size cb ev s) as [Hw' Hh'].
  split; congruence.
Qed.

Lemma dispatch_size (ev : Event) (s : World) :
  width (geom (dispatch ev s)) = width (geom s) /\
  height (geom (dispatch ev s)) = height (geom s).
Proof.
  destruct ev as [t q e | now ns | e]; cbn [dispatch].
  - apply deliver_size.
  - destruct (after_queue s); auto.
  - auto.
Qed.

Lemma mainloop_size (evs : list Event) (s : World) :
  width (geom (world_of (mainloop evs s))) = width (geom s) /\
  height (geom (world_of (mainloop evs s))) = height (geom s).
Proof.
  revert s. induction evs as [| ev evs IH]; intros s.
  - cbn [mainloop]. destruct (alive s); auto.
  - destruct (alive s) eqn:A.
    2:{ rewrite mainloop_dead by assumption. auto. }
    destruct (dispatch_size ev s) as [Hw Hh].
    destruct (IH (dispatch ev s)) as [Hw' Hh'].
    destruct ev as [t q e | now ns | e].
    + rewrite mainloop_mouse by assumption. split; congruence.
    + rewrite mainloop_timer by assumption. split; congruence.
    + rewrite mainloop_async by assumption. auto.
Qed.

Lemma run_world (evs : list Event) (s : World) :
  world_of (run evs s) = world_of (mainloop evs s).
Proof.
  unfold run. destruct (mainloop evs s) as [s' | [u | e] s']; try reflexivity.
  destruct (is_KeyboardInterrupt e); reflexivity.
Qed.

(** C9. The size [__init__] gives the window is the size it has after any
    run of events, wherever that run stops.  The motion handler changes
    the position and nothing else; the tick handler changes the text of
    the time labels (and queues its successor) and nothing else, so that
    neither touches the size. *)
Theorem C9_size_fixed (h : Host) (evs : list Event) (s0 : World)
    (Hinit : DesktopClock h = (Val tt, s0)) :
  width (geom (world_of (run evs s0)))
  = reqwidth h Hhmmss + reqwidth h Dot + reqwidth h Mmm + 30 /\
  height (geom (world_of (run evs s0)))
  = Z.max (reqheight h Hhmmss) (reqheight h Mmm) + 20 /\
  (forall (ev : MouseEvent) (s : World),
      exec (_on_move ev) s
      = set_geom {| width := width (geom s); height := height (geom s);
                    pos_x := x_root ev - drag_x (_drag_data s);
                    pos_y := y_root ev - drag_y (_drag_data s) |} s) /\
  (forall (now : DateTime) (now_ns : Z) (s : World),
      exec (_update_time now now_ns) s
      = set_after_queue (after_queue s ++ [delay_ms now_ns])
          (set_labels {| hhmmss := strftime_HMS now; dot := dot (labels s);
                         mmm := format_mmm now |} s)).
Proof.
  rewrite run_world. destruct (mainloop_size evs s0) as [Hw Hh].
  rewrite Hw, Hh. apply init_inv in Hinit. subst s0.
  repeat split.
Qed.

Lemma C9_size_fixed_witness :
  width (geom (world_of (run sample_events sample_boot)))
  = reqwidth sample_host Hhmmss + reqwidth sample_host Dot
    + reqwidth sample_host Mmm + 30 /\
  height (geom (world_of (run sample_events sample_boot)))
  = Z.max (reqheight sample_host Hhmmss) (reqheight sample_host Mmm) + 20 /\
  (forall (ev : MouseEvent) (s : World),
      exec (_on_move ev) s
      = set_geom {| width := width (geom s); height := height (geom s);
                    pos_x := x_root ev - drag_x (_drag_data s);
                    pos_y := y_root ev - drag_y (_drag_data s) |} s) /\
  (forall (now : DateTime) (now_ns : Z) (s : World),
      exec (_update_time now now_ns) s
      = set_after_queue (after_queue s ++ [delay_ms now_ns])
          (set_labels {| hhmmss := strftime_HMS now; dot := dot (labels s);
                         mmm := format_mmm now |} s)).
Proof.
  apply (C9_size_fixed sample_host sample_events sample_boot).
  vm_compute. reflexivity.
Defined.

(** ** Interruption *)

(** C10. A [KeyboardInterrupt] raised into the running event loop leaves
    [mainloop] as an exception, [run] catches it and returns normally, and
    the process ends with a clean exit instead of a traceback. *)
Theorem C10_keyboard_interrupt_swallowed (h : Host)
    (pre rest : list Event) (s0 s : World)
    (Hinit : DesktopClock h = (Val tt, s0))
    (Hpre : mainloop pre s0 = Waiting s) :
  mainloop (pre ++ Async KeyboardInterrupt :: rest) s0
  = Done (Raised KeyboardInterrupt) s /\
  run (pre ++ Async KeyboardInterrupt :: rest) s0 = Done (Val tt) s /\
  main h (pre ++ Async KeyboardInterrupt :: rest) = Exit_0.
Proof.
  destruct (running_invariant h pre s0 s Hinit Hpre) as (A & _ & _).
  assert (L : mainloop (pre ++ Async KeyboardInterrupt :: rest) s0
              = Done (Raised KeyboardInterrupt) s).
  { rewrite (mainloop_app pre _ s0 s Hpre). apply mainloop_async, A. }
  assert (R : run (pre ++ Async KeyboardInterrupt :: rest) s0
              = Done (Val tt) s).
  { unfold run. rewrite L. reflexivity. }
  repeat split; trivial.
  unfold main. rewrite Hinit, R. reflexivity.
Qed.

Lemma C10_keyboard_interrupt_swallowed_witness :
  mainloop (sample_events ++ Async KeyboardInterrupt :: sample_mid) sample_boot
  = Done (Raised KeyboardInterrupt) sample_world /\
  run (sample_events ++ Async KeyboardInterrupt :: sample_mid) sample_boot
  = Done (Val tt) sample_world /\
  main sample_host (sample_events ++ Async KeyboardInterrupt :: sample_mid)
  = Exit_0.
Proof.
  apply (C10_keyboard_interrupt_swallowed sample_host sample_events
           sample_mid sample_boot sample_world).
  - vm_compute. reflexivity.
  - vm_compute. reflexivity.
Defined.

(** * Further properties of the code *)

(** ** The time label ([_update_time], line 99) *)

Lemma format_0d_2_table :
  forallb (fun n => String.eqb (format_0d 2 (Z.of_nat n))
                               (two_digits (Z.of_nat n)))
          (seq 0 100) = true.
Proof. vm_compute. reflexivity. Qed.

Lemma format_0d_2_digits (v : Z) :
  0 <= v < 100 -> format_0d 2 v = two_digits v.
Proof.
  intros Hv. pose proof format_0d_2_table as T.
  rewrite forallb_forall in T. specialize (T (Z.to_nat v)).
  rewrite Z2Nat.id in T by lia.
  apply String.eqb_eq, T, in_seq. lia.
Qed.

(** X1. For a time of day (hour below 24, minute and second below 60) the
    tick writes into the first label the eight characters [HH:MM:SS], each
    field on two digits. *)
Theorem X1_hhmmss_field (now : DateTime) (now_ns : Z) (s : World)
    (Hh : 0 <= hour now < 24) (Hm : 0 <= minute now < 60)
    (Hs : 0 <= second now < 60) :
  hhmmss (labels (exec (_update_time now now_ns) s))
  = (two_digits (hour now) ++ ":" ++ two_digits (minute now) ++ ":"
     ++ two_digits (second now))%string /\
  String.length (hhmmss (labels (exec (_update_time now now_ns) s))) = 8%nat.
Proof.
  rewrite update_time_labels. cbn [hhmmss]. unfold strftime_HMS.
  rewrite !format_0d_2_digits by lia. split; reflexivity.
Qed.

Lemma X1_hhmmss_field_witness :
  (0 <= hour sample_now < 24 /\ 0 <= minute sample_now < 60 /\
   0 <= second sample_now < 60) /\
  (hhmmss (labels (exec (_update_time sample_now 0) tk_Tk))
   = (two_digits (hour sample_now) ++ ":" ++ two_digits (minute sample_now)
      ++ ":" ++ two_digits (second sample_now))%string /\
   String.length (hhmmss (labels (exec (_update_time sample_now 0) tk_Tk)))
   = 8%nat).
Proof.
  split.
  - cbn. lia.
  - apply (X1_hhmmss_field sample_now 0 tk_Tk); cbn; lia.
Defined.

(** ** The scheduling step ([_schedule_next_tick], lines 103-108) *)

(** X2. Whatever the clock reads, the delay handed to [after] lies between
    1 and 16 ms: the timer is never armed with 0 and never beyond one
    interval. *)
Theorem X2_delay_range (now_ns : Z) (s : World) :
  after_queue (exec (_schedule_next_tick now_ns) s)
  = after_queue s ++ [delay_ms now_ns] /\
  1 <= delay_ms now_ns <= 16.
Proof. split; [reflexivity | apply delay_ms_bounds]. Qed.

(** X3. The next tick is the least multiple of the interval strictly above
    the reading: no multiple lies between the two. *)
Theorem X3_next_tick_least (now_ns m : Z)
    (Hm : m mod interval_ns = 0) (Hlt : now_ns < m) :
  next_tick_ns now_ns <= m /\
  next_tick_ns now_ns mod interval_ns = 0 /\
  now_ns < next_tick_ns now_ns.
Proof.
  pose proof (next_tick_gap_bounds now_ns).
  repeat split; [apply next_tick_least; assumption
                | apply next_tick_multiple | lia].
Qed.

Lemma X3_next_tick_least_witness :
  (48000000 mod interval_ns = 0 /\ 17000000 < 48000000) /\
  (next_tick_ns 17000000 <= 48000000 /\
   next_tick_ns 17000000 mod interval_ns = 0 /\
   17000000 < next_tick_ns 17000000).
Proof.
  split.
  - split; [reflexivity | lia].
  - apply (X3_next_tick_least 17000000 48000000); [reflexivity | lia].
Defined.

(** X4. The instant the timer is due, [now + delay_ms] in nanoseconds, is
    less than one millisecond away from the boundary aimed at: short of it
    when the gap is a millisecond or more (the conversion rounds down),
    past it when the floor of 1 ms applies. *)
Theorem X4_due_within_one_ms (now_ns : Z) :
  Z.abs (next_tick_ns now_ns - (now_ns + delay_ms now_ns * 1000000))
  < 1000000 /\
  (if next_tick_ns now_ns - now_ns <? 1000000
   then delay_ms now_ns = 1 /\
        next_tick_ns now_ns < now_ns + delay_ms now_ns * 1000000
   else now_ns + delay_ms now_ns * 1000000 <= next_tick_ns now_ns).
Proof.
  pose proof (next_tick_gap_bounds now_ns) as B.
  unfold delay_ms. rewrite delay_ms_quot.
  set (g := next_tick_ns now_ns - now_ns) in *.
  pose proof (Z.div_mod g 1000000 ltac:(lia)) as E.
  pose proof (Z.mod_pos_bound g 1000000 ltac:(lia)) as R.
  assert (Hq : 0 <= g / 1000000) by (apply Z.div_pos; lia).
  replace (next_tick_ns now_ns) with (now_ns + g) by (unfold g; lia).
  destruct (Z.ltb_spec g 1000000) as [Hs | Hl].
  - assert (g / 1000000 = 0) as -> by (apply Z.div_small; lia). lia.
  - assert (1 <= g / 1000000).
    { apply Z.div_le_lower_bound; lia. }
    lia.
Qed.

(** X5. A reading that falls exactly on a boundary aims at the following
    boundary, a full 16 ms later, not at itself. *)
Theorem X5_on_boundary (now_ns : Z) (Hb : now_ns mod interval_ns = 0) :
  next_tick_ns now_ns = now_ns + interval_ns /\ delay_ms now_ns = 16.
Proof.
  assert (G : next_tick_ns now_ns - now_ns = 16000000).
  { rewrite next_tick_gap, Hb. reflexivity. }
  split.
  - rewrite interval_ns_val. lia.
  - unfold delay_ms. rewrite G. reflexivity.
Qed.

Lemma X5_on_boundary_witness :
  32000000 mod interval_ns = 0 /\
  (next_tick_ns 32000000 = 32000000 + interval_ns /\ delay_ms 32000000 = 16).
Proof. split; [reflexivity | apply (X5_on_boundary 32000000); reflexivity]. Defined.

(** ** Bindings ([__init__], lines 67-72) *)

(** X6. In every state the running clock reaches, a mouse event on any of
    the three labels has the effect it has on the window itself: one run
    of the callback bound to its sequence. *)
Theorem X6_labels_act_as_window (h : Host) (pre : list Event)
    (s0 s : World) (t : Widget) (q : Sequence) (e : MouseEvent)
    (Hinit : DesktopClock h = (Val tt, s0))
    (Hpre : mainloop pre s0 = Waiting s) :
  dispatch (Mouse t q e) s = dispatch (Mouse Root q e) s /\
  dispatch (Mouse t q e) s = exec (callback (handler_of q) e) s.
Proof.
  destruct (running_invariant h pre s0 s Hinit Hpre) as (A & I & _).
  rewrite !dispatch_mouse by assumption. split; reflexivity.
Qed.

Lemma X6_labels_act_as_window_witness :
  dispatch (Mouse Mmm B1_Motion sample_motion) sample_world
  = dispatch (Mouse Root B1_Motion sample_motion) sample_world /\
  dispatch (Mouse Mmm B1_Motion sample_motion) sample_world
  = exec (callback (handler_of B1_Motion) sample_motion) sample_world.
Proof.
  apply (X6_labels_act_as_window sample_host sample_events sample_boot
           sample_world Mmm B1_Motion sample_motion).
  - vm_compute. reflexivity.
  - vm_compute. reflexivity.
Defined.

(** ** Startup failures ([__init__], lines 40-52) *)

(** X7. When neither font family can be loaded the fallback raises out of
    [__init__]: the process ends with the uncaught [TclError] before any
    binding is installed or any tick is scheduled, each family having been
    asked for once. *)
Theorem X7_no_font_is_fatal (h : Host) (evs : list Event)
    (Hpref : font_ok h JetBrainsMono = false)
    (Hfall : font_ok h Courier = false) :
  fst (DesktopClock h) = Raised TclError /\
  main h evs = Uncaught TclError /\
  bindings (snd (DesktopClock h)) = [] /\
  after_queue (snd (DesktopClock h)) = [] /\
  count_call (call_Font JetBrainsMono) (calls (snd (DesktopClock h))) = 1%nat /\
  count_call (call_Font Courier) (calls (snd (DesktopClock h))) = 1%nat.
Proof.
  assert (E : DesktopClock h
              = (Raised TclError,
                 set_calls [call_topmost; call_overrideredirect;
                            call_Font JetBrainsMono; call_Font Courier]
                   (set_undecorated (overrideredirect_ok h)
                      (set_topmost (topmost_ok h) tk_Tk)))).
  { revert Hpref Hfall. boot_cases; intros; try discriminate; reflexivity. }
  unfold main. rewrite E. repeat split.
Qed.

Lemma X7_no_font_is_fatal_witness :
  fst (DesktopClock sample_bare) = Raised TclError /\
  main sample_bare sample_events = Uncaught TclError /\
  bindings (snd (DesktopClock sample_bare)) = [] /\
  after_queue (snd (DesktopClock sample_bare)) = [] /\
  count_call (call_Font JetBrainsMono) (calls (snd (DesktopClock sample_bare)))
  = 1%nat /\
  count_call (call_Font Courier) (calls (snd (DesktopClock sample_bare)))
  = 1%nat.
Proof.
  apply (X7_no_font_is_fatal sample_bare sample_events); reflexivity.
Defined.



(** ** What [run] lets through (lines 120-124) *)

(** X9. [run] swallows [KeyboardInterrupt] and nothing else: any other
    exception raised into the event loop leaves [run] and ends the process
    as an uncaught exception. *)
Theorem X9_other_exceptions_propagate (h : Host) (pre rest : list Event)
    (s0 s : World) (e : exn)
    (Hinit : DesktopClock h = (Val tt, s0))
    (Hpre : mainloop pre s0 = Waiting s)
    (He : is_KeyboardInterrupt e = false) :
  run (pre ++ Async e :: rest) s0 = Done (Raised e) s /\
  main h (pre ++ Async e :: rest) = Uncaught e.
Proof.
  destruct (running_invariant h pre s0 s Hinit Hpre) as (A & _ & _).
  assert (R : run (pre ++ Async e :: rest) s0 = Done (Raised e) s).
  { unfold run. rewrite (mainloop_app pre _ s0 s Hpre).
    rewrite mainloop_async by assumption. rewrite He. reflexivity. }
  split; [exact R |]. unfold main. rewrite Hinit, R. reflexivity.
Qed.

Lemma X9_other_exceptions_propagate_witness :
  run (sample_events ++ Async SystemExit :: sample_mid) sample_boot
  = Done (Raised SystemExit) sample_world /\
  main sample_host (sample_events ++ Async SystemExit :: sample_mid)
  = Uncaught SystemExit.
Proof.
  apply (X9_other_exceptions_propagate sample_host sample_events sample_mid
           sample_boot sample_world SystemExit).
  - vm_compute. reflexivity.
  - vm_compute. reflexivity.
  - reflexivity.
Defined.

(** ** What moves the window ([_on_start_move], [_on_move], lines 88-95) *)

Lemma still_step (ev : Event) (s : World) :
  installed s -> alive s = true -> is_motion ev = false ->
  geom (dispatch ev s) = geom s.
Proof.
  intros I A K. destruct ev as [t q e | now ns | e].
  - rewrite dispatch_mouse by assumption.
    destruct q; try discriminate K; reflexivity.
  - cbn [dispatch]. destruct (after_queue s); reflexivity.
  - reflexivity.
Qed.

Lemma still_run (evs : list Event) (s : World) :
  installed s -> forallb (fun ev => negb (is_motion ev)) evs = true ->
  geom (world_of (mainloop evs s)) = geom s.
Proof.
  revert s. induction evs as [| ev evs IH]; intros s I K.
  - cbn [mainloop]. destruct (alive s); reflexivity.
  - destruct (alive s) eqn:A.
    2:{ rewrite mainloop_dead by assumption. reflexivity. }
    cbn [forallb] in K. apply andb_prop in K. destruct K as [K1 K2].
    apply negb_true_iff in K1.
    pose proof (still_step ev s I A K1) as G.
    pose proof (dispatch_installed ev s I A) as I'.
    destruct ev as [t q e | now ns | e].
    + rewrite mainloop_mouse, (IH _ I' K2) by assumption. exact G.
    + rewrite mainloop_timer, (IH _ I' K2) by assumption. exact G.
    + rewrite mainloop_async by assumption. reflexivity.
Qed.

(** X10. Only motion events move the window: from any state the running
    clock reaches, a run of events without a [B1-Motion] (presses, ticks,
    a dismissal, an interruption) leaves position and size as they
    were. *)
Theorem X10_only_motion_moves (h : Host) (pre evs : list Event)
    (s0 s : World)
    (Hinit : DesktopClock h = (Val tt, s0))
    (Hpre : mainloop pre s0 = Waiting s)
    (Hevs : forallb (fun ev => negb (is_motion ev)) evs = true) :
  geom (world_of (mainloop (pre ++ evs) s0)) = geom s.
Proof.
  destruct (running_invariant h pre s0 s Hinit Hpre) as (_ & I & _).
  rewrite (mainloop_app pre evs s0 s Hpre). apply still_run; assumption.
Qed.

Lemma X10_only_motion_moves_witness :
  geom (world_of (mainloop
          (sample_events
           ++ [Mouse Dot ButtonPress_1 sample_motion;
               Timer sample_now 216000000;
               Mouse Root Button_3 sample_press]) sample_boot))
  = geom sample_world.
Proof.
  apply (X10_only_motion_moves sample_host sample_events
           [Mouse Dot ButtonPress_1 sample_motion;
            Timer sample_now 216000000;
            Mouse Root Button_3 sample_press] sample_boot sample_world).
  - vm_compute. reflexivity.
  - vm_compute. reflexivity.
  - reflexivity.
Defined.

(** X11. The window follows the cursor rigidly.  A motion at the very
    point of the press leaves the window where it stands (the drag starts
    without a jump), and between two motions of a drag the window moves by
    exactly the cursor's displacement. *)
Theorem X11_rigid_drag (h : Host) (pre mid : list Event) (s0 s : World)
    (t1 t2 t3 : Widget) (press m1 m2 : MouseEvent)
    (Hinit : DesktopClock h = (Val tt, s0))
    (Hpre : mainloop pre s0 = Waiting s)
    (Hmid : forallb keeps_drag mid = true) :
  geom (world_of (mainloop (pre ++ [Mouse t1 ButtonPress_1 press;
                                    Mouse t2 B1_Motion press]) s0))
  = geom s /\
  exists sa sb : World,
    mainloop (pre ++ [Mouse t2 B1_Motion m1]) s0 = Waiting sa /\
    mainloop (pre ++ Mouse t2 B1_Motion m1
                  :: mid ++ [Mouse t3 B1_Motion m2]) s0 = Waiting sb /\
    pos_x (geom sb) - pos_x (geom sa) = x_root m2 - x_root m1 /\
    pos_y (geom sb) - pos_y (geom sa) = y_root m2 - y_root m1.
Proof.
  destruct (running_invariant h pre s0 s Hinit Hpre) as (A & I & _).
  split.
  - rewrite (mainloop_app pre _ s0 s Hpre).
    rewrite mainloop_mouse, dispatch_mouse by assumption.
    cbn [handler_of].
    set (s1 := exec (callback cb_on_start_move press) s).
    assert (A1 : alive s1 = true) by exact A.
    assert (I1 : installed s1).
    { intros t q. unfold s1. rewrite callback_bindings. apply I. }
    rewrite mainloop_mouse, dispatch_mouse by assumption.
    cbn [handler_of]. rewrite mainloop_nil by exact A1.
    unfold s1. rewrite !callback_effect.
    cbn [world_of set_geom set_drag_data geom _drag_data drag_x drag_y].
    destruct (geom s) as [w ht x y]. cbn [width height pos_x pos_y].
    f_equal; lia.
  - set (sa := exec (callback cb_on_move m1) s).
    assert (Aa : alive sa = true) by exact A.
    assert (Ia : installed sa).
    { intros t q. unfold sa. rewrite callback_bindings. apply I. }
    destruct (keeps_drag_run mid sa Ia Aa Hmid) as (s2 & H2 & A2 & I2 & D2).
    exists sa, (exec (callback cb_on_move m2) s2).
    split; [| split].
    + rewrite (mainloop_app pre _ s0 s Hpre).
      rewrite mainloop_mouse, dispatch_mouse by assumption.
      apply mainloop_nil, Aa.
    + rewrite (mainloop_app pre _ s0 s Hpre).
      rewrite mainloop_mouse, dispatch_mouse by assumption.
      cbn [handler_of]. fold sa.
      rewrite (mainloop_app mid _ sa s2 H2).
      rewrite mainloop_mouse, dispatch_mouse by assumption.
      apply mainloop_nil. rewrite callback_alive. exact A2.
    + rewrite (callback_effect cb_on_move m2 s2).
      cbn [set_geom geom pos_x pos_y]. rewrite D2.
      unfold sa. rewrite callback_effect.
      cbn [set_geom geom pos_x pos_y _drag_data]. lia.
Qed.

Lemma X11_rigid_drag_witness :
  geom (world_of (mainloop (sample_events
                            ++ [Mouse Dot ButtonPress_1 sample_press;
                                Mouse Mmm B1_Motion sample_press])
                           sample_boot))
  = geom sample_world /\
  exists sa sb : World,
    mainloop (sample_events ++ [Mouse Mmm B1_Motion sample_press])
             sample_boot = Waiting sa /\
    mainloop (sample_events ++ Mouse Mmm B1_Motion sample_press
                  :: sample_mid ++ [Mouse Root B1_Motion sample_motion])
             sample_boot = Waiting sb /\
    pos_x (geom sb) - pos_x (geom sa)
    = x_root sample_motion - x_root sample_press /\
    pos_y (geom sb) - pos_y (geom sa)
    = y_root sample_motion - y_root sample_press.
Proof.
  apply (X11_rigid_drag sample_host sample_events sample_mid sample_boot
           sample_world Dot Mmm Root sample_press sample_press sample_motion).
  - vm_compute. reflexivity.
  - vm_compute. reflexivity.
  - reflexivity.
Defined.

(** ** What the labels show ([_update_time], lines 97-101) *)

Lemma callback_labels (cb : Callback) (ev : MouseEvent) (s : World) :
  labels (exec (callback cb ev) s) = labels s.
Proof. destruct cb; reflexivity. Qed.

Lemma deliver_labels (tags : list Widget) (q : Sequence) (ev : MouseEvent)
    (s : World) :
  labels (deliver tags q ev s) = labels s.
Proof.
  revert s. induction tags as [| t tags IH]; intros s; [reflexivity |].
  cbn [deliver]. destruct (alive s); [| reflexivity].
  destruct (lookup_binding (bindings s) t q) as [cb |]; rewrite IH;
    [apply callback_labels | reflexivity].
Qed.

Lemma quiet_run (evs : list Event) (s : World) :
  forallb (fun ev => negb (is_timer ev)) evs = true ->
  labels (world_of (mainloop evs s)) = labels s.
Proof.
  revert s. induction evs as [| ev evs IH]; intros s K.
  - cbn [mainloop]. destruct (alive s); reflexivity.
  - destruct (alive s) eqn:A.
    2:{ rewrite mainloop_dead by assumption. reflexivity. }
    cbn [forallb] in K. apply andb_prop in K. destruct K as [K1 K2].
    destruct ev as [t q e | now ns | e]; try discriminate K1.
    + rewrite mainloop_mouse, (IH _ K2) by assumption.
      apply deliver_labels.
    + rewrite mainloop_async by assumption. reflexivity.
Qed.

Lemma dispatch_dot (ev : Event) (s : World) :
  dot (labels (dispatch ev s)) = dot (labels s).
Proof.
  destruct ev as [t q e | now ns | e]; cbn [dispatch].
  - rewrite deliver_labels. reflexivity.
  - destruct (after_queue s); reflexivity.
  - reflexivity.
Qed.

Lemma mainloop_dot (evs : list Event) (s : World) :
  dot (labels (world_of (mainloop evs s))) = dot (labels s).
Proof.
  revert s. induction evs as [| ev evs IH]; intros s.
  - cbn [mainloop]. destruct (alive s); reflexivity.
  - destruct (alive s) eqn:A.
    2:{ rewrite mainloop_dead by assumption. reflexivity. }
    destruct ev as [t q e | now ns | e].
    + rewrite mainloop_mouse, IH by assumption. apply dispatch_dot.
    + rewrite mainloop_timer, IH by assumption. apply dispatch_dot.
    + rewrite mainloop_async by assumption. reflexivity.
Qed.

(** X12. The labels show the reading of the latest tick: after a tick with
    reading [now], whatever mouse events, dismissal or interruption follow
    (no further tick), the first label is [now] formatted [HH:MM:SS], the
    last its milliseconds, and the separator is the dot it has been since
    startup. *)
Theorem X12_labels_show_latest_tick (h : Host) (pre post : list Event)
    (s0 s : World) (now : DateTime) (now_ns : Z)
    (Hinit : DesktopClock h = (Val tt, s0))
    (Hpre : mainloop pre s0 = Waiting s)
    (Hpost : forallb (fun ev => negb (is_timer ev)) post = true) :
  labels (world_of (mainloop (pre ++ Timer now now_ns :: post) s0))
  = {| hhmmss := strftime_HMS now; dot := "."; mmm := format_mmm now |}.
Proof.
  destruct (running_invariant h pre s0 s Hinit Hpre) as (A & _ & T).
  assert (Hdot : dot (labels s) = "."%string).
  { pose proof (mainloop_dot pre s0) as D. rewrite Hpre in D.
    cbn [world_of] in D. rewrite D.
    apply init_inv in Hinit. subst s0. reflexivity. }
  rewrite (mainloop_app pre _ s0 s Hpre).
  rewrite mainloop_timer, (quiet_run post _ Hpost) by assumption.
  destruct T as (d & Hq & _). cbn [dispatch]. rewrite Hq.
  rewrite update_time_labels. cbn [labels set_after_queue].
  rewrite Hdot. reflexivity.
Qed.

Lemma X12_labels_show_latest_tick_witness :
  labels (world_of (mainloop
            (sample_events
             ++ Timer sample_now 232000000
                :: [Mouse Dot ButtonPress_1 sample_press;
                    Mouse Dot B1_Motion sample_motion]) sample_boot))
  = {| hhmmss := strftime_HMS sample_now; dot := ".";
       mmm := format_mmm sample_now |}.
Proof.
  apply (X12_labels_show_latest_tick sample_host sample_events
           [Mouse Dot ButtonPress_1 sample_press;
            Mouse Dot B1_Motion sample_motion]
           sample_boot sample_world sample_now 232000000).
  - vm_compute. reflexivity.
  - vm_compute. reflexivity.
  - reflexivity.
Defined.
